(** * DBSN building records to OSM tags: [EdifTranslation.filter_tags]

    A shallow embedding of [src/edificato.py].  The translation class has
    one method, [filter_tags(self, attrs)]: it reads six coded fields of
    the record [attrs] and fills a fresh dictionary [tags] in five
    consecutive blocks (name, underground flag, building type, use,
    boundary check) followed by the status block.

    - a Python dictionary is a [gmap] with [string] keys;
    - [attrs[k]] on a missing key raises [KeyError]: the method is written
      in an error monad, blocks run in the order of the source;
    - a field value is a string or [None];
    - a [match] statement over string literals is a list of clauses tried
      in order, each with its literal patterns and the assignments of its
      body. *)

From stdpp Require Import base option list strings gmap fin_maps.
From Stdlib Require Import Ascii String.

Open Scope string_scope.

(** ** Python values and exceptions *)

(** A field of the record: a [str] (its UTF-8 bytes) or [None]. *)
Inductive pyval :=
  | PNone
  | PStr (s : string).

#[global] Instance pyval_eq_dec : EqDecision pyval.
Proof. solve_decision. Defined.

Inductive exn :=
  | KeyError (k : string)
  | TypeError.

Inductive result (A : Type) :=
  | Ok (a : A)
  | Raise (e : exn).
Arguments Ok {A} a.
Arguments Raise {A} e.

#[global] Instance result_ret : MRet result := λ A a, Ok a.
#[global] Instance result_bind : MBind result := λ A B f r,
  match r with
  | Ok a => f a
  | Raise e => Raise e
  end.

(** [d[k]]: the value at [k], [KeyError] when the key is missing. *)
Definition getitem {V} (d : gmap string V) (k : string) : result V :=
  match d !! k with
  | Some v => Ok v
  | None => Raise (KeyError k)
  end.

(** [v == "lit"] for a string literal: [None] equals no string. *)
Definition py_eq (v : pyval) (lit : string) : bool :=
  match v with
  | PStr s => String.eqb s lit
  | PNone => false
  end.

(** ** [str.lower] *)

(** Upper-case ASCII letters go to lower case. *)
Definition lower_ascii (c : ascii) : ascii :=
  let n := nat_of_ascii c in
  if (65 <=? n)%nat && (n <=? 90)%nat then ascii_of_nat (n + 32) else c.

(** [str.lower] on the UTF-8 bytes of a string.  Besides the ASCII
    letters, KELVIN SIGN (U+212A, bytes E2 84 AA) is the one code point
    outside ASCII whose lower case is ASCII (the letter k); it is mapped
    here.  Every other byte is kept: the lower case of any other code
    point outside ASCII is outside ASCII again, so it plays no part in a
    comparison with an ASCII literal. *)
Fixpoint str_lower (s : string) : string :=
  match s with
  | EmptyString => EmptyString
  | String c s' =>
      match s' with
      | String c1 (String c2 s'') =>
          if (nat_of_ascii c =? 226)%nat && (nat_of_ascii c1 =? 132)%nat
             && (nat_of_ascii c2 =? 170)%nat
          then String "k"%char (str_lower s'')
          else String (lower_ascii c) (str_lower s')
      | _ => String (lower_ascii c) (str_lower s')
      end
  end.

(** ** [match] statements over string literals *)

(** The assignments [tags[k] = v] of a clause body, in source order. *)
Definition writes := list (string * string).

(** One [case p1 | p2 | ...:] clause. *)
Definition clause : Type := list string * writes.

Definition clause_matches (pats : list string) (subject : pyval) : bool :=
  existsb (py_eq subject) pats.

(** The body of the first clause one of whose patterns equals the
    subject; [None] when no clause matches. *)
Fixpoint match_case (cs : list clause) (subject : pyval) : option writes :=
  match cs with
  | [] => None
  | (pats, ws) :: cs' =>
      if clause_matches pats subject then Some ws else match_case cs' subject
  end.

(** Running the assignments of a body on the dictionary. *)
Definition setitems (ws : writes) (tags : gmap string string)
  : gmap string string :=
  foldl (λ t kv, <[kv.1 := kv.2]> t) tags ws.

(** ** The blocks of [filter_tags] *)

(** Lines 65-68.  [str.lower(None)] raises [TypeError] (the unbound
    method wants a [str]), so the name that is stored is a string, as is
    every other value the method stores in [tags]. *)
Definition name_block (attrs : gmap string pyval) (tags : gmap string string)
  : result (gmap string string) :=
  nome ← getitem attrs "edifc_nome";
  match nome with
  | PNone => Raise TypeError
  | PStr s =>
      if negb (String.eqb (str_lower s) "unk")
      then mret (<["name" := s]> tags)
      else mret (<["name" := ""]> tags)
  end.

(** Lines 70-73. *)
Definition underground_writes : writes :=
  [ ("location", "underground");
    ("building:levels", "0");
    ("fixme:buildind", "Check location, if not verifiable remove geometry") ].

Definition underground_block (attrs : gmap string pyval)
    (tags : gmap string string) : result (gmap string string) :=
  sot ← getitem attrs "edifc_sot";
  if py_eq sot "02" then mret (setitems underground_writes tags)
  else mret tags.

(** Lines 75-104: the clauses of [match attrs["edifc_ty"]] before
    [case _]. *)
Definition edifc_ty_cases : list clause :=
  [ (["04"], [("building", "house")]);
    (["07"], [("building", "tower"); ("man_made", "tower");
              ("tower:type", "bell_tower")]);
    (["10"], [("building", "castle")]);
    (["11"], [("building", "church")]);
    (["14"], [("building", "hangar")]);
    (["16"], [("building", "temple")]);
    (["19"], [("building", "sports_hall")]);
    (["21"], [("building", "stadium")]);
    (["22"], [("building", "cathedral")]);
    (["23"], [("building", "roof"); ("layer", "1")]);
    (["24"], [("building", "yes"); ("defensive_works", "bastion")]);
    (["25"], [("building", "yes"); ("historic", "citywalls")]) ].

(** Lines 105-106: [case _]. *)
Definition edifc_ty_default : writes := [("building", "yes")].

Definition edifc_ty_writes (ty : pyval) : writes :=
  default edifc_ty_default (match_case edifc_ty_cases ty).

Definition structural_block (attrs : gmap string pyval)
    (tags : gmap string string) : result (gmap string string) :=
  ty ← getitem attrs "edifc_ty";
  mret (setitems (edifc_ty_writes ty) tags).

(** Lines 108-198: the clauses of [match attrs["edifc_uso"]]; there is no
    [case _]. *)
Definition edifc_uso_cases : list clause :=
  [ (["02"], [("building", "office")]);
    (["0201"], [("amenity", "townhall")]);
    (["0203"], [("office", "government"); ("admin_level", "4")]);
    (["030101"], [("amenity", "social_facility")]);
    (["030102"], [("amenity", "hospital"); ("healthcare", "hospital")]);
    (["030103"], [("amenity", "clinic"); ("healthcare", "clinic")]);
    (["030104"], [("amenity", "hospital"); ("healthcare", "hospital");
                  ("fixme:classify",
                   "if it doesn't allows hospitalization it should be tagged as amenity=clinic")]);
    (["030301"], [("amenity", "school")]);
    (["030302"], [("amenity", "university")]);
    (["0304"], [("amenity", "post_office")]);
    (["0306"], [("amenity", "police")]);
    (["0307"], [("amenity", "fire_station")]);
    (["05"], [("amenity", "place_of_worship")]);
    (["060101"], [("aeroway", "aerodrome")]);
    (["060102"], [("aeroway", "heliport")]);
    (["060201"], [("amenity", "bus_station"); ("public_transport", "station")]);
    (["060202"], [("amenity", "parking"); ("parking", "multi-storey")]);
    (["060301"], [("railway", "station")]);
    (["060404"], [("aerialway", "station")]);
    (["0701"], [("amenity", "bank")]);
    (["0702"], [("shop", "department_store")]);
    (["0703"; "0704"], [("shop", "supermarket")]);
    (["0801"], [("building", "industrial")]);
    (["0802"; "080201"; "080202"; "080203"; "080206"],
     [("building", "service"); ("utility", "power")]);
    (["0804"], [("man_made", "wastewater_plant")]);
    (["0806"], [("building", "service"); ("utility", "telecom")]);
    (["0901"], [("building", "house")]);
    (["0902"; "0903"; "0904"], [("building", "farm_auxiliary")]);
    (["1001"], [("building", "public")]);
    (["100101"], [("amenity", "library")]);
    (["100102"], [("amenity", "cinema")]);
    (["100103"], [("amenity", "theatre")]);
    (["100104"], [("tourism", "museum")]);
    (["1002"], [("building", "sports_centre")]);
    (["100201"], [("leisure", "swimming_pool"); ("indoor", "yes")]);
    (["100202"], [("leisure", "sports_hall")]);
    (["11"], [("amenity", "prison")]);
    (["1201"; "1202"], [("building", "hotel")]);
    (["1203"], [("tourism", "camp_site")]);
    (["1204"], [("tourism", "alpine_hut")]) ].

(** No clause matches: the statement does nothing. *)
Definition edifc_uso_writes (uso : pyval) : writes :=
  default [] (match_case edifc_uso_cases uso).

Definition use_block (attrs : gmap string pyval)
    (tags : gmap string string) : result (gmap string string) :=
  uso ← getitem attrs "edifc_uso";
  mret (setitems (edifc_uso_writes uso) tags).

(** Lines 200-202. *)
Definition check_geom_cases : list clause :=
  [ (["01"], [("fixme:geometry",
               "check if the building is cut on regional border")]) ].

Definition check_geom_writes (g : pyval) : writes :=
  default [] (match_case check_geom_cases g).

Definition geometry_block (attrs : gmap string pyval)
    (tags : gmap string string) : result (gmap string string) :=
  g ← getitem attrs "check_geom";
  mret (setitems (check_geom_writes g) tags).

(** Lines 204-212.  The body of [case "01"] reads [tags["building"]],
    which raises [KeyError] on a dictionary without that key. *)
Definition status_block (attrs : gmap string pyval)
    (tags : gmap string string) : result (gmap string string) :=
  stat ← getitem attrs "edifc_stat";
  if py_eq stat "01" then
    b ← getitem tags "building";
    let tags1 :=
      if negb (String.eqb b "yes") then <["construction" := b]> tags
      else tags in
    mret (<["fixme:building" := "resurvey construction type and status"]>
            (<["building" := "construction"]> tags1))
  else if py_eq stat "02" then
    mret (<["fixme:building" := "resurvey status"]>
            (<["ruins" := "yes"]> tags))
  else mret tags.

(** ** [filter_tags] *)

(** [not attrs]: the host's "no attributes" is [None] or an empty
    dictionary. *)
Definition py_not (attrs : option (gmap string pyval)) : bool :=
  match attrs with
  | None => true
  | Some a => bool_decide (a = ∅)
  end.

(** The blocks that run before the status block, on a fresh [tags]. *)
Definition earlier_blocks (a : gmap string pyval)
  : result (gmap string string) :=
  tags ← name_block a ∅;
  tags ← underground_block a tags;
  tags ← structural_block a tags;
  tags ← use_block a tags;
  geometry_block a tags.

(** The method: [Ok None] is the bare [return], [Ok (Some tags)] is
    [return tags]. *)
Definition filter_tags (attrs : option (gmap string pyval))
  : result (option (gmap string string)) :=
  match attrs with
  | Some a =>
      if py_not attrs then mret None
      else
        tags ← earlier_blocks a;
        tags ← status_block a tags;
        mret (Some tags)
  | None => mret None
  end.

(** A record with all six fields, for the examples. *)
Definition record (nome sot ty uso geom stat : pyval) : gmap string pyval :=
  <["edifc_nome" := nome]> (<["edifc_sot" := sot]> (<["edifc_ty" := ty]>
  (<["edifc_uso" := uso]> (<["check_geom" := geom]>
  {["edifc_stat" := stat]})))).

(** The value of a tag in what the method returned. *)
Definition tag_of (r : result (option (gmap string string))) (k : string)
  : option string :=
  match r with
  | Ok (Some tags) => tags !! k
  | _ => None
  end.

(** ** What the blocks write, as data *)

(** The value a run of assignments leaves at key [k], if it assigns [k]
    at all: the last assignment wins. *)
Fixpoint last_write (k : string) (ws : writes) : option string :=
  match ws with
  | [] => None
  | (k', v) :: ws' =>
      match last_write k ws' with
      | Some v' => Some v'
      | None => if String.eqb k' k then Some v else None
      end
  end.

(** The six fields of a record on which every read succeeds. *)
Record fields := Fields {
  nome : string;
  sot : pyval;
  ty : pyval;
  uso : pyval;
  geom : pyval;
  stat : pyval
}.

(** The reads of the first five blocks succeed and give the values of
    [f]. *)
Definition has_earlier_fields (a : gmap string pyval) (f : fields) : Prop :=
  a !! "edifc_nome" = Some (PStr (nome f)) ∧
  a !! "edifc_sot" = Some (sot f) ∧
  a !! "edifc_ty" = Some (ty f) ∧
  a !! "edifc_uso" = Some (uso f) ∧
  a !! "check_geom" = Some (geom f).

(** All six reads do. *)
Definition has_fields (a : gmap string pyval) (f : fields) : Prop :=
  has_earlier_fields a f ∧ a !! "edifc_stat" = Some (stat f).

Definition name_writes (n : string) : writes :=
  [("name", if negb (String.eqb (str_lower n) "unk") then n else "")].

Definition sot_writes (v : pyval) : writes :=
  if py_eq v "02" then underground_writes else [].

(** All assignments of the first five blocks, in order. *)
Definition earlier_writes (f : fields) : writes :=
  (name_writes (nome f) ++ sot_writes (sot f) ++ edifc_ty_writes (ty f)
   ++ edifc_uso_writes (uso f) ++ check_geom_writes (geom f))%list.

(** The bodies of a [match] statement, and the literals it knows. *)
Definition bodies (cs : list clause) : list writes := map snd cs.
Definition patterns (cs : list clause) : list string :=
  List.concat (map fst cs).

(** The assignments of a body to keys other than [building]. *)
Definition auxiliary (ws : writes) : writes :=
  filter (λ kv, kv.1 ≠ "building") ws.

Definition building_writes (ws : writes) : writes :=
  filter (λ kv, kv.1 = "building") ws.

Definition ty_has_auxiliary (c : string) : bool :=
  negb (Nat.eqb (List.length (auxiliary (edifc_ty_writes (PStr c)))) 0).

Definition ty_is_specific (c : string) : bool :=
  bool_decide (last_write "building" (edifc_ty_writes (PStr c)) ≠ Some "yes").

(** Keys that only one block assigns. *)
Definition untouched_by_tables (k : string) : Prop :=
  Forall (λ ws, last_write k ws = None)
    (bodies edifc_ty_cases ++ bodies edifc_uso_cases
     ++ bodies check_geom_cases)%list
  ∧ last_write k edifc_ty_default = None.

(** What the status block makes of the tags of the earlier blocks. *)
Definition status_result (v : pyval) (b : string)
    (tags : gmap string string) : gmap string string :=
  if py_eq v "01" then
    <["fixme:building" := "resurvey construction type and status"]>
      (<["building" := "construction"]>
         (if negb (String.eqb b "yes") then <["construction" := b]> tags
          else tags))
  else if py_eq v "02" then
    <["fixme:building" := "resurvey status"]> (<["ruins" := "yes"]> tags)
  else tags.

(** The keys the method reads in [attrs], in the order of the reads. *)
Definition field_reads : list string :=
  ["edifc_nome"; "edifc_sot"; "edifc_ty"; "edifc_uso"; "check_geom";
   "edifc_stat"].

(** The keys a body assigns. *)
Definition keys (ws : writes) : list string := map fst ws.

(** Every assignment of a literal in the first five blocks: lines 68,
    71-73 and the bodies of the three [match] statements. *)
Definition earlier_literals : writes :=
  (("name", "") :: underground_writes ++ edifc_ty_default
   ++ List.concat (bodies edifc_ty_cases)
   ++ List.concat (bodies edifc_uso_cases)
   ++ List.concat (bodies check_geom_cases))%list.

(** What line 207 can store: a building type of the earlier blocks other
    than "yes", under [construction]. *)
Definition construction_writes : writes :=
  map (λ kv, ("construction", kv.2))
    (filter (λ kv, kv.1 = "building" ∧ kv.2 ≠ "yes") earlier_literals).

(** The assignments of literals in the status block, lines 208-212. *)
Definition status_writes : writes :=
  [ ("building", "construction");
    ("fixme:building", "resurvey construction type and status");
    ("ruins", "yes");
    ("fixme:building", "resurvey status") ].

(** Every tag the method can store that is not the name of the record. *)
Definition fixed_entries : writes :=
  (earlier_literals ++ construction_writes ++ status_writes)%list.

(** The keys assigned anywhere in the method, in the order in which they
    first appear in the source. *)
Definition tag_keys : list string :=
  ["name"; "location"; "building:levels"; "fixme:buildind"; "building";
   "man_made"; "tower:type"; "layer"; "defensive_works"; "historic";
   "amenity"; "office"; "admin_level"; "healthcare"; "fixme:classify";
   "aeroway"; "public_transport"; "parking"; "railway"; "aerialway"; "shop";
   "utility"; "tourism"; "leisure"; "indoor"; "fixme:geometry";
   "construction"; "fixme:building"; "ruins"].

(** * Properties *)

(** Closes a decidable statement about the fixed tables by evaluation. *)
Ltac by_table := apply (bool_decide_unpack _); vm_compute; exact I.


(** ** Assignments and lookups *)

Section Writes.
Implicit Types (ws : writes) (tags : gmap string string) (k : string).

Lemma setitems_cons k v ws tags :
  setitems ((k, v) :: ws) tags = setitems ws (<[k := v]> tags).
Proof. reflexivity. Qed.

Lemma setitems_app ws1 ws2 tags :
  setitems (ws1 ++ ws2)%list tags = setitems ws2 (setitems ws1 tags).
Proof. apply foldl_app. Qed.

Lemma setitems_lookup k ws tags :
  setitems ws tags !! k = from_option Some (tags !! k) (last_write k ws).
Proof.
  revert tags; induction ws as [|[k' v] ws IH]; intros tags; [done|].
  rewrite setitems_cons, IH. cbn [last_write].
  destruct (last_write k ws) as [v'|]; [done|]. cbn.
  destruct (String.eqb_spec k' k) as [->|Hne].
  - by rewrite lookup_insert_eq.
  - by rewrite lookup_insert_ne.
Qed.

Lemma last_write_app k ws1 ws2 :
  last_write k (ws1 ++ ws2)%list
  = from_option Some (last_write k ws1) (last_write k ws2).
Proof.
  induction ws1 as [|[k' v] ws1 IH]; cbn.
  - by destruct (last_write k ws2).
  - rewrite IH. by destruct (last_write k ws2).
Qed.

Lemma setitems_empty_lookup k ws :
  setitems ws ∅ !! k = last_write k ws.
Proof. rewrite setitems_lookup, lookup_empty. by destruct (last_write k ws). Qed.
End Writes.

(** ** [match] statements *)

Lemma py_eq_true v lit : py_eq v lit = true ↔ v = PStr lit.
Proof.
  destruct v as [|s]; cbn; [done|].
  rewrite String.eqb_eq. split; [by intros ->|by intros [= ->]].
Qed.

Lemma py_eq_false v lit : py_eq v lit = false ↔ v ≠ PStr lit.
Proof. rewrite <-py_eq_true. by destruct (py_eq v lit). Qed.

Lemma match_case_bodies cs v ws :
  match_case cs v = Some ws → ws ∈ bodies cs.
Proof.
  induction cs as [|[pats ws'] cs IH]; cbn; [done|].
  destruct (clause_matches pats v).
  - intros [= ->]. apply list_elem_of_here.
  - intros H. apply list_elem_of_further, IH, H.
Qed.

Lemma match_case_None cs v :
  (∀ c, c ∈ patterns cs → v ≠ PStr c) → match_case cs v = None.
Proof.
  unfold patterns. induction cs as [|[pats ws] cs IH]; cbn; intros H; [done|].
  assert (clause_matches pats v = false) as ->.
  { unfold clause_matches. apply not_true_is_false. rewrite existsb_exists.
    intros (c & Hc & Heq). apply py_eq_true in Heq.
    apply (H c); [|done]. apply elem_of_app. left. by apply list_elem_of_In. }
  apply IH. intros c Hc. apply H, elem_of_app. by right.
Qed.

(** A property of the default body and of every clause body holds of
    whatever the statement runs. *)
Lemma match_case_Forall (P : writes → Prop) cs d v :
  P d → Forall P (bodies cs) → P (default d (match_case cs v)).
Proof.
  intros Hd Hall. destruct (match_case cs v) as [ws|] eqn:E; cbn; [|done].
  rewrite Forall_forall in Hall. by apply Hall, match_case_bodies with v.
Qed.

Lemma untouched_ty k v :
  untouched_by_tables k → last_write k (edifc_ty_writes v) = None.
Proof.
  intros [H Hd]. apply (match_case_Forall (λ ws, last_write k ws = None)); [done|].
  by apply Forall_app in H as [? _].
Qed.

Lemma untouched_uso k v :
  untouched_by_tables k → last_write k (edifc_uso_writes v) = None.
Proof.
  intros [H _]. apply (match_case_Forall (λ ws, last_write k ws = None)); [done|].
  by apply Forall_app in H as [_ [? _]%Forall_app].
Qed.

Lemma untouched_geom k v :
  untouched_by_tables k → last_write k (check_geom_writes v) = None.
Proof.
  intros [H _]. apply (match_case_Forall (λ ws, last_write k ws = None)); [done|].
  by apply Forall_app in H as [_ [_ ?]%Forall_app].
Qed.

Lemma untouched_name : untouched_by_tables "name".
Proof. by_table. Qed.
Lemma untouched_location : untouched_by_tables "location".
Proof. by_table. Qed.
Lemma untouched_levels : untouched_by_tables "building:levels".
Proof. by_table. Qed.
Lemma untouched_fixme_buildind : untouched_by_tables "fixme:buildind".
Proof. by_table. Qed.
Lemma untouched_fixme_building : untouched_by_tables "fixme:building".
Proof. by_table. Qed.
Lemma untouched_construction : untouched_by_tables "construction".
Proof. by_table. Qed.
Lemma untouched_ruins : untouched_by_tables "ruins".
Proof. by_table. Qed.

(** ** The method on a record that has its fields *)

Lemma getitem_Some {V} (d : gmap string V) k v :
  d !! k = Some v → getitem d k = Ok v.
Proof. unfold getitem. by intros ->. Qed.

Lemma getitem_None {V} (d : gmap string V) k :
  d !! k = None → getitem d k = Raise (KeyError k).
Proof. unfold getitem. by intros ->. Qed.

Lemma getitem_Ok_inv {V} (d : gmap string V) k v :
  getitem d k = Ok v → d !! k = Some v.
Proof. unfold getitem. destruct (d !! k); [by intros [= ->]|done]. Qed.

Lemma bind_Ok_inv {A B} (r : result A) (g : A → result B) b :
  r ≫= g = Ok b → ∃ x, r = Ok x ∧ g x = Ok b.
Proof. destruct r as [x|e]; cbn; [by exists x|done]. Qed.

Lemma has_fields_py_not a f : has_fields a f → py_not (Some a) = false.
Proof.
  intros ((Hn & _) & _). cbn. apply bool_decide_eq_false. intros ->.
  by rewrite lookup_empty in Hn.
Qed.

Lemma name_block_fields a f tags :
  has_earlier_fields a f → name_block a tags = Ok (setitems (name_writes (nome f)) tags).
Proof.
  intros (Hn & _). unfold name_block. rewrite (getitem_Some _ _ _ Hn). cbn.
  by destruct (negb _).
Qed.

Lemma underground_block_fields a f tags :
  has_earlier_fields a f →
  underground_block a tags = Ok (setitems (sot_writes (sot f)) tags).
Proof.
  intros (_ & Hs & _). unfold underground_block, sot_writes.
  rewrite (getitem_Some _ _ _ Hs). cbn. by destruct (py_eq _ _).
Qed.

Lemma earlier_blocks_fields a f :
  has_earlier_fields a f → earlier_blocks a = Ok (setitems (earlier_writes f) ∅).
Proof.
  intros H. unfold earlier_blocks, earlier_writes.
  rewrite (name_block_fields a f), !setitems_app by done. cbn.
  rewrite (underground_block_fields a f) by done. cbn.
  destruct H as (_ & _ & Ht & Hu & Hg).
  unfold structural_block, use_block, geometry_block.
  rewrite (getitem_Some _ _ _ Ht). cbn.
  rewrite (getitem_Some _ _ _ Hu). cbn.
  by rewrite (getitem_Some _ _ _ Hg).
Qed.

(** The building type after the first five blocks: the use code's, where
    its clause assigns one, the type code's otherwise. *)
Lemma ty_writes_building v :
  ∃ b, last_write "building" (edifc_ty_writes v) = Some b.
Proof.
  apply (match_case_Forall (λ ws, is_Some (last_write "building" ws))).
  - by eexists.
  - by_table.
Qed.

Lemma check_geom_no_building v :
  last_write "building" (check_geom_writes v) = None.
Proof.
  apply (match_case_Forall (λ ws, last_write "building" ws = None)); [done|].
  by_table.
Qed.

Lemma sot_no_building v : last_write "building" (sot_writes v) = None.
Proof. unfold sot_writes. by destruct (py_eq v "02"). Qed.

Lemma earlier_building f :
  last_write "building" (earlier_writes f)
  = from_option Some (last_write "building" (edifc_ty_writes (ty f)))
      (last_write "building" (edifc_uso_writes (uso f))).
Proof.
  unfold earlier_writes.
  rewrite !last_write_app, check_geom_no_building, sot_no_building.
  destruct (last_write "building" (edifc_uso_writes (uso f)));
    cbn [from_option]; [done|].
  by destruct (ty_writes_building (ty f)) as [b ->].
Qed.

Lemma earlier_building_Some f :
  ∃ b, last_write "building" (earlier_writes f) = Some b.
Proof.
  rewrite earlier_building.
  destruct (last_write "building" (edifc_uso_writes (uso f))) as [b|]; cbn.
  - by exists b.
  - apply ty_writes_building.
Qed.

(** A key none of the three tables assigns keeps what the name and
    underground blocks gave it. *)
Lemma earlier_untouched k f :
  untouched_by_tables k →
  last_write k (earlier_writes f)
  = from_option Some (last_write k (name_writes (nome f)))
      (last_write k (sot_writes (sot f))).
Proof.
  intros H. unfold earlier_writes.
  by rewrite !last_write_app, untouched_geom, untouched_uso, untouched_ty.
Qed.

Lemma status_block_fields a f tags b :
  has_fields a f → tags !! "building" = Some b →
  status_block a tags = Ok (status_result (stat f) b tags).
Proof.
  intros (_ & Hs) Hb. unfold status_block, status_result.
  rewrite (getitem_Some _ _ _ Hs). cbn.
  destruct (py_eq (stat f) "01"); [|by destruct (py_eq (stat f) "02")].
  by rewrite (getitem_Some _ _ _ Hb).
Qed.

Lemma filter_tags_fields a f :
  has_fields a f →
  ∃ b, last_write "building" (earlier_writes f) = Some b ∧
       filter_tags (Some a)
       = Ok (Some (status_result (stat f) b (setitems (earlier_writes f) ∅))).
Proof.
  intros H. destruct (earlier_building_Some f) as [b Hb]. exists b. split; [done|].
  unfold filter_tags. rewrite (has_fields_py_not a f H).
  rewrite (earlier_blocks_fields a f (proj1 H)). cbn [mbind result_bind].
  rewrite (status_block_fields a f _ b H).
  - done.
  - by rewrite setitems_empty_lookup.
Qed.

(** Conversely, the method returns tags only on a record that has its six
    fields, the name a string. *)
Lemma block_read_inv {A} a k (g : pyval → result A) r :
  getitem a k ≫= g = Ok r → ∃ v, a !! k = Some v ∧ g v = Ok r.
Proof.
  intros (v & Hv & Hg)%bind_Ok_inv. exists v. split; [|done].
  by apply getitem_Ok_inv.
Qed.

Lemma earlier_blocks_Ok_inv a pre :
  earlier_blocks a = Ok pre →
  ∃ n vs vt vu vg, ∀ vst, has_earlier_fields a (Fields n vs vt vu vg vst).
Proof.
  unfold earlier_blocks.
  intros (t1 & H1 & (t2 & H2 & (t3 & H3 & (t4 & H4 & H5)%bind_Ok_inv)
    %bind_Ok_inv)%bind_Ok_inv)%bind_Ok_inv.
  apply block_read_inv in H1 as (vn & Hn & H1).
  apply block_read_inv in H2 as (vs & Hs & _).
  apply block_read_inv in H3 as (vt & Ht & _).
  apply block_read_inv in H4 as (vu & Hu & _).
  apply block_read_inv in H5 as (vg & Hg & _).
  destruct vn as [|n]; [done|]. by exists n, vs, vt, vu, vg.
Qed.

Lemma filter_tags_Ok_inv a tags :
  filter_tags (Some a) = Ok (Some tags) → ∃ f, has_fields a f.
Proof.
  unfold filter_tags. destruct (py_not (Some a)); [done|].
  intros (pre & Hpre & (t & Hst & _)%bind_Ok_inv)%bind_Ok_inv.
  apply earlier_blocks_Ok_inv in Hpre as (n & vs & vt & vu & vg & H).
  apply block_read_inv in Hst as (vst & Hst & _).
  exists (Fields n vs vt vu vg vst). by split.
Qed.

Lemma py_not_Some a : py_not (Some a) = true ↔ a = ∅.
Proof. cbn. apply bool_decide_eq_true. Qed.

(** Lookups in the result of the status block. *)
Lemma status_result_building v b tags :
  status_result v b tags !! "building"
  = if py_eq v "01" then Some "construction" else tags !! "building".
Proof.
  unfold status_result. destruct (py_eq v "01").
  - rewrite lookup_insert_ne by done. by rewrite lookup_insert_eq.
  - destruct (py_eq v "02"); [|done]. by rewrite !lookup_insert_ne by done.
Qed.

Lemma status_result_note v b tags :
  status_result v b tags !! "fixme:building"
  = if py_eq v "01" then Some "resurvey construction type and status"
    else if py_eq v "02" then Some "resurvey status"
    else tags !! "fixme:building".
Proof.
  unfold status_result.
  destruct (py_eq v "01"); [by rewrite lookup_insert_eq|].
  destruct (py_eq v "02"); [by rewrite lookup_insert_eq|done].
Qed.

Lemma status_result_construction v b tags :
  py_eq v "01" = true → b ≠ "yes" →
  status_result v b tags !! "construction" = Some b.
Proof.
  intros Hv Hb. unfold status_result. rewrite Hv.
  apply String.eqb_neq in Hb as ->. cbn [negb].
  rewrite !lookup_insert_ne by done. by rewrite lookup_insert_eq.
Qed.

(** The status block writes four keys only. *)
Lemma status_result_other k v b tags :
  k ≠ "building" → k ≠ "construction" → k ≠ "fixme:building" → k ≠ "ruins" →
  status_result v b tags !! k = tags !! k.
Proof.
  intros ????. unfold status_result.
  destruct (py_eq v "01"); [|destruct (py_eq v "02")].
  - rewrite !lookup_insert_ne by done.
    destruct (negb _); [by rewrite lookup_insert_ne|done].
  - by rewrite !lookup_insert_ne.
  - done.
Qed.

(** * The claims *)

(** ** C3: no record, no tags *)

(** C3.  When the host supplies no attribute record ([None], or the empty
    dictionary: both make [not attrs] true), [filter_tags] returns [None]:
    the bare [return], which is not an empty tag dictionary. *)
Theorem filter_tags_absent_record (attrs : option (gmap string pyval)) :
  py_not attrs = true →
  filter_tags attrs = Ok None ∧ filter_tags attrs ≠ Ok (Some ∅).
Proof.
  intros H. assert (filter_tags attrs = Ok None) as ->; [|done].
  destruct attrs as [a|]; [|done]. unfold filter_tags. by rewrite H.
Qed.

Lemma filter_tags_absent_record_witness :
  (filter_tags None = Ok None ∧ filter_tags None ≠ Ok (Some ∅)) ∧
  (filter_tags (Some ∅) = Ok None ∧ filter_tags (Some ∅) ≠ Ok (Some ∅)).
Proof.
  split.
  - apply (filter_tags_absent_record None). reflexivity.
  - apply (filter_tags_absent_record (Some ∅)). reflexivity.
Defined.

(** ** C2: when the method returns *)

(** C2, as stated, fails: a record without the type code makes the read
    [attrs["edifc_ty"]] raise [KeyError], and a record whose name is [None]
    makes [str.lower] raise [TypeError]. *)
Lemma filter_tags_not_total :
  filter_tags (Some (<["edifc_nome" := PStr "Municipio"]>
                       {["edifc_sot" := PStr "01"]}))
  = Raise (KeyError "edifc_ty") ∧
  filter_tags (Some (record PNone (PStr "01") (PStr "04") (PStr "02")
                       (PStr "02") (PStr "91")))
  = Raise TypeError ∧
  ¬ (∀ a : gmap string pyval, ∃ r, filter_tags (Some a) = Ok r).
Proof.
  split; [reflexivity|]. split; [reflexivity|].
  intros H. destruct (H {["edifc_sot" := PNone]}) as [r Hr].
  vm_compute in Hr. discriminate.
Qed.

(** C2, amended.  [filter_tags] returns without raising exactly on the
    empty record (no tags) and on the records that hold all six fields with
    a string for the name (a tag dictionary); the other five fields may be
    [None] or any string. *)
Theorem filter_tags_total_on_complete_records (a : gmap string pyval) :
  ((a = ∅ ∨ ∃ f, has_fields a f) ↔ ∃ r, filter_tags (Some a) = Ok r) ∧
  (a = ∅ → filter_tags (Some a) = Ok None) ∧
  ((∃ f, has_fields a f) → ∃ tags, filter_tags (Some a) = Ok (Some tags)).
Proof.
  assert (a = ∅ → filter_tags (Some a) = Ok None) as Hempty.
  { intros ->. reflexivity. }
  assert ((∃ f, has_fields a f) → ∃ tags, filter_tags (Some a) = Ok (Some tags))
    as Hfull.
  { intros [f Hf]. destruct (filter_tags_fields a f Hf) as (b & _ & ->).
    by eexists. }
  split; [|done]. split.
  - intros [He|Hf].
    + exists None. by apply Hempty.
    + destruct (Hfull Hf) as [tags Ht]. by exists (Some tags).
  - intros [[tags|] Hr].
    + right. by apply filter_tags_Ok_inv with tags.
    + left. apply py_not_Some. unfold filter_tags in Hr.
      destruct (py_not (Some a)); [done|].
      apply bind_Ok_inv in Hr as (? & _ & (? & _ & [=])%bind_Ok_inv).
Qed.

Lemma filter_tags_total_on_complete_records_witness :
  ∃ tags, filter_tags (Some (record (PStr "Municipio") PNone PNone PNone
                               PNone PNone)) = Ok (Some tags).
Proof.
  apply (filter_tags_total_on_complete_records
           (record (PStr "Municipio") PNone PNone PNone PNone PNone)).
  exists (Fields "Municipio" PNone PNone PNone PNone PNone).
  repeat split; reflexivity.
Defined.

(** ** C1: the use code's building type comes before the type code's *)

(** C1.  When the clause of the use code assigns the building type, the
    returned building type is that assignment, whatever the type code;
    under status code "01" it is "construction", whatever both codes. *)
Theorem use_building_precedence (a : gmap string pyval) (f : fields)
    (ws : writes) (b : string) :
  has_fields a f →
  match_case edifc_uso_cases (uso f) = Some ws →
  last_write "building" ws = Some b →
  ∃ tags, filter_tags (Some a) = Ok (Some tags) ∧
    tags !! "building"
    = Some (if py_eq (stat f) "01" then "construction" else b).
Proof.
  intros Hf Hws Hb. destruct (filter_tags_fields a f Hf) as (b0 & Hb0 & ->).
  eexists; split; [done|].
  rewrite status_result_building. destruct (py_eq (stat f) "01"); [done|].
  rewrite setitems_empty_lookup, earlier_building.
  unfold edifc_uso_writes, default. rewrite Hws. cbn [from_option id].
  by rewrite Hb.
Qed.

Lemma use_building_precedence_witness :
  ∃ tags,
    filter_tags (Some (record (PStr "Enel") (PStr "01") (PStr "11")
                         (PStr "080203") PNone (PStr "02")))
    = Ok (Some tags) ∧
    tags !! "building" = Some "service".
Proof.
  apply (use_building_precedence
           (record (PStr "Enel") (PStr "01") (PStr "11") (PStr "080203")
              PNone (PStr "02"))
           (Fields "Enel" (PStr "01") (PStr "11") (PStr "080203") PNone
              (PStr "02"))
           [("building", "service"); ("utility", "power")] "service").
  - repeat split; reflexivity.
  - reflexivity.
  - reflexivity.
Defined.

(** ** C4: buildings under construction *)

(** C4, as stated, fails in its last sentence: with type code "07" and
    status code "01" the [construction] tag holds the use code's building
    type whenever the use code assigns one, here "industrial". *)
Lemma construction_wrap_not_tower :
  tag_of (filter_tags (Some (record (PStr "Torre") (PStr "01") (PStr "07")
                               (PStr "0801") PNone (PStr "01"))))
    "construction"
  = Some "industrial" ∧
  tag_of (filter_tags (Some (record (PStr "Torre") (PStr "01") (PStr "07")
                               (PStr "0801") PNone (PStr "01"))))
    "construction"
  ≠ Some "tower".
Proof. split; [reflexivity|]. vm_compute. discriminate. Qed.

(** C4, amended.  Under status code "01", a building type [b] other than
    "yes" left by the earlier blocks is kept under [construction], the
    building type becomes "construction" and the fix-up note is added.  In
    particular type code "07" with status code "01" gives
    [construction=tower] and [building=construction] when the clause of the
    use code assigns no building type. *)
Theorem construction_wrap (a : gmap string pyval) (f : fields) :
  has_fields a f → stat f = PStr "01" →
  ∃ pre b tags,
    earlier_blocks a = Ok pre ∧ pre !! "building" = Some b ∧
    filter_tags (Some a) = Ok (Some tags) ∧
    (b ≠ "yes" → tags !! "construction" = Some b) ∧
    tags !! "building" = Some "construction" ∧
    tags !! "fixme:building" = Some "resurvey construction type and status" ∧
    (ty f = PStr "07" →
     last_write "building" (edifc_uso_writes (uso f)) = None →
     tags !! "construction" = Some "tower").
Proof.
  intros Hf Hst. destruct (filter_tags_fields a f Hf) as (b & Hb & Hft).
  exists (setitems (earlier_writes f) ∅), b. eexists.
  split; [by apply earlier_blocks_fields, Hf|].
  split; [by rewrite setitems_empty_lookup|].
  split; [exact Hft|]. rewrite Hst.
  split; [by apply status_result_construction|].
  split; [by rewrite status_result_building|].
  split; [by rewrite status_result_note|].
  intros Hty Huso. rewrite earlier_building, Huso, Hty in Hb.
  vm_compute in Hb. injection Hb as <-.
  by apply status_result_construction.
Qed.

Lemma construction_wrap_witness :
  ∃ pre b tags,
    earlier_blocks (record (PStr "Torre") (PStr "01") (PStr "07")
                      (PStr "05") PNone (PStr "01")) = Ok pre ∧
    pre !! "building" = Some b ∧
    filter_tags (Some (record (PStr "Torre") (PStr "01") (PStr "07")
                         (PStr "05") PNone (PStr "01"))) = Ok (Some tags) ∧
    (b ≠ "yes" → tags !! "construction" = Some b) ∧
    tags !! "building" = Some "construction" ∧
    tags !! "fixme:building" = Some "resurvey construction type and status" ∧
    (PStr "07" = PStr "07" →
     last_write "building" (edifc_uso_writes (PStr "05")) = None →
     tags !! "construction" = Some "tower").
Proof.
  apply (construction_wrap
           (record (PStr "Torre") (PStr "01") (PStr "07") (PStr "05") PNone
              (PStr "01"))
           (Fields "Torre" (PStr "01") (PStr "07") (PStr "05") PNone
              (PStr "01"))).
  - repeat split; reflexivity.
  - reflexivity.
Defined.

(** ** C5: the type code table *)

(** C5, as stated, fails on its count: four of the known codes, not
    three, carry auxiliary tags. *)
Lemma structural_auxiliary_codes_not_three :
  List.length (filter ty_has_auxiliary (patterns edifc_ty_cases)) ≠ 3.
Proof. vm_compute. discriminate. Qed.

(** C5, amended.  Every type code gets exactly one building-type
    assignment.  Twelve codes are known; ten of them get a building type
    of their own and two ("24", "25") the generic "yes"; four of them ("07",
    "23", "24", "25") also get one or two auxiliary tags; any other value
    gets [building=yes] and nothing else. *)
Theorem structural_table :
  (∀ v, List.length (building_writes (edifc_ty_writes v)) = 1) ∧
  patterns edifc_ty_cases
  = ["04"; "07"; "10"; "11"; "14"; "16"; "19"; "21"; "22"; "23"; "24"; "25"] ∧
  filter ty_is_specific (patterns edifc_ty_cases)
  = ["04"; "07"; "10"; "11"; "14"; "16"; "19"; "21"; "22"; "23"] ∧
  filter ty_has_auxiliary (patterns edifc_ty_cases)
  = ["07"; "23"; "24"; "25"] ∧
  Forall (λ c,
      (1 ≤ List.length (auxiliary (edifc_ty_writes (PStr c))) ≤ 2)%nat)
    (filter ty_has_auxiliary (patterns edifc_ty_cases)) ∧
  (∀ v, (∀ c, c ∈ patterns edifc_ty_cases → v ≠ PStr c) →
        edifc_ty_writes v = [("building", "yes")]).
Proof.
  split.
  { intros v.
    apply (match_case_Forall (λ ws, List.length (building_writes ws) = 1));
      [done|by_table]. }
  split; [reflexivity|]. split; [by vm_compute|]. split; [by vm_compute|].
  split; [by_table|].
  intros v Hv. unfold edifc_ty_writes. by rewrite match_case_None.
Qed.

Lemma structural_table_witness :
  edifc_ty_writes (PStr "95") = [("building", "yes")] ∧
  edifc_ty_writes PNone = [("building", "yes")].
Proof.
  split.
  - apply structural_table. intros c Hc [= <-]. revert Hc.
    apply (bool_decide_unpack (¬ _)). vm_compute. exact I.
  - apply structural_table. intros c _. discriminate.
Defined.

(** ** C6: the name *)

(** C6.  A name whose lower case is "unk" gives [name=""], any other name
    is kept as it is; "UNK", "unk" and "Unk" are of the first kind. *)
Theorem name_tag (a : gmap string pyval) (f : fields) :
  has_fields a f →
  (∃ tags, filter_tags (Some a) = Ok (Some tags) ∧
     tags !! "name"
     = Some (if String.eqb (str_lower (nome f)) "unk" then "" else nome f)) ∧
  Forall (λ s, str_lower s = "unk") ["UNK"; "unk"; "Unk"].
Proof.
  intros Hf. split; [|by_table].
  destruct (filter_tags_fields a f Hf) as (b & _ & ->).
  eexists; split; [done|].
  rewrite status_result_other, setitems_empty_lookup by done.
  rewrite (earlier_untouched _ _ untouched_name).
  unfold sot_writes, name_writes.
  destruct (py_eq (sot f) "02"); cbn; by destruct (String.eqb _ "unk").
Qed.

Lemma name_tag_witness :
  (∃ tags,
     filter_tags (Some (record (PStr "Palazzo dei Priori") (PStr "01")
                          (PStr "95") (PStr "0201") PNone (PStr "91")))
     = Ok (Some tags) ∧
     tags !! "name" = Some "Palazzo dei Priori") ∧
  Forall (λ s, str_lower s = "unk") ["UNK"; "unk"; "Unk"].
Proof.
  apply (name_tag
           (record (PStr "Palazzo dei Priori") (PStr "01") (PStr "95")
              (PStr "0201") PNone (PStr "91"))
           (Fields "Palazzo dei Priori" (PStr "01") (PStr "95") (PStr "0201")
              PNone (PStr "91"))).
  repeat split; reflexivity.
Defined.

(** ** C7: underground buildings *)

(** C7.  With underground flag "02" the returned tags hold
    [location=underground], [building:levels=0] and the fix-up note, whatever
    the other fields.  On any other value of the flag, [None] included, the
    underground block leaves the tags as they are; when the record has no
    such field the read raises and no tags are produced at all. *)
Theorem underground_tags (a : gmap string pyval) :
  (∀ f, has_fields a f → sot f = PStr "02" →
     ∃ tags, filter_tags (Some a) = Ok (Some tags) ∧
       tags !! "location" = Some "underground" ∧
       tags !! "building:levels" = Some "0" ∧
       tags !! "fixme:buildind"
       = Some "Check location, if not verifiable remove geometry") ∧
  (∀ v tags, a !! "edifc_sot" = Some v → v ≠ PStr "02" →
     underground_block a tags = Ok tags) ∧
  (∀ tags, a !! "edifc_sot" = None →
     underground_block a tags = Raise (KeyError "edifc_sot")).
Proof.
  split; [|split].
  - intros f Hf Hs. destruct (filter_tags_fields a f Hf) as (b & _ & ->).
    eexists; split; [done|].
    rewrite !status_result_other, !setitems_empty_lookup by done.
    rewrite (earlier_untouched _ _ untouched_location),
      (earlier_untouched _ _ untouched_levels),
      (earlier_untouched _ _ untouched_fixme_buildind), Hs.
    done.
  - intros v tags Hv Hne. unfold underground_block.
    rewrite (getitem_Some _ _ _ Hv). cbn.
    by apply py_eq_false in Hne as ->.
  - intros tags Hv. unfold underground_block.
    by rewrite (getitem_None _ _ Hv).
Qed.

Lemma underground_tags_witness :
  (∃ tags,
     filter_tags (Some (record (PStr "unk") (PStr "02") (PStr "23")
                          (PStr "060202") (PStr "01") (PStr "02")))
     = Ok (Some tags) ∧
     tags !! "location" = Some "underground" ∧
     tags !! "building:levels" = Some "0" ∧
     tags !! "fixme:buildind"
     = Some "Check location, if not verifiable remove geometry") ∧
  underground_block {["edifc_sot" := PNone]} {["name" := "Rocca"]}
  = Ok {["name" := "Rocca"]} ∧
  underground_block {["edifc_ty" := PStr "04"]} {["name" := "Rocca"]}
  = Raise (KeyError "edifc_sot").
Proof.
  pose proof (underground_tags
                (record (PStr "unk") (PStr "02") (PStr "23") (PStr "060202")
                   (PStr "01") (PStr "02"))) as (H1 & _ & _).
  pose proof (underground_tags {["edifc_sot" := PNone]}) as (_ & H2 & _).
  pose proof (underground_tags {["edifc_ty" := PStr "04"]}) as (_ & _ & H3).
  split; [|split].
  - apply (H1 (Fields "unk" (PStr "02") (PStr "23") (PStr "060202")
                 (PStr "01") (PStr "02"))).
    + repeat split; reflexivity.
    + reflexivity.
  - apply (H2 PNone); [reflexivity|discriminate].
  - apply H3. reflexivity.
Defined.

(** ** C8: other status codes *)

(** C8.  On a status code other than "01" and "02" (so on "91", and on
    [None]) the status block returns the tags it was given; the method then
    returns the tags of the earlier blocks, which hold none of
    [construction], [ruins] and [fixme:building]. *)
Theorem status_other_codes (a : gmap string pyval) (v : pyval) :
  a !! "edifc_stat" = Some v → v ≠ PStr "01" → v ≠ PStr "02" →
  (∀ tags, status_block a tags = Ok tags) ∧
  (∀ pre, earlier_blocks a = Ok pre →
     filter_tags (Some a) = Ok (Some pre) ∧
     pre !! "construction" = None ∧ pre !! "ruins" = None ∧
     pre !! "fixme:building" = None).
Proof.
  intros Hv H1 H2.
  assert (∀ tags, status_block a tags = Ok tags) as Hst.
  { intros tags. unfold status_block. rewrite (getitem_Some _ _ _ Hv). cbn.
    apply py_eq_false in H1 as ->. by apply py_eq_false in H2 as ->. }
  split; [done|]. intros pre Hpre.
  destruct (earlier_blocks_Ok_inv a pre Hpre) as (n & vs & vt & vu & vg & Hf).
  specialize (Hf v).
  assert (py_not (Some a) = false) as Hne.
  { by apply (has_fields_py_not a (Fields n vs vt vu vg v)). }
  split.
  { unfold filter_tags. rewrite Hne, Hpre. cbn. by rewrite Hst. }
  assert (pre = setitems (earlier_writes (Fields n vs vt vu vg v)) ∅) as ->.
  { rewrite (earlier_blocks_fields a _ Hf) in Hpre. congruence. }
  rewrite !setitems_empty_lookup.
  rewrite (earlier_untouched _ _ untouched_construction),
    (earlier_untouched _ _ untouched_ruins),
    (earlier_untouched _ _ untouched_fixme_building).
  unfold sot_writes. cbn. by destruct (py_eq vs "02").
Qed.

Lemma status_other_codes_witness :
  (∀ tags,
     status_block (record (PStr "Rocca") (PStr "01") (PStr "10") (PStr "05")
                     PNone (PStr "91")) tags = Ok tags) ∧
  (∀ pre,
     earlier_blocks (record (PStr "Rocca") (PStr "01") (PStr "10")
                       (PStr "05") PNone (PStr "91")) = Ok pre →
     filter_tags (Some (record (PStr "Rocca") (PStr "01") (PStr "10")
                          (PStr "05") PNone (PStr "91"))) = Ok (Some pre) ∧
     pre !! "construction" = None ∧ pre !! "ruins" = None ∧
     pre !! "fixme:building" = None).
Proof.
  apply (status_other_codes
           (record (PStr "Rocca") (PStr "01") (PStr "10") (PStr "05") PNone
              (PStr "91"))
           (PStr "91")).
  - reflexivity.
  - discriminate.
  - discriminate.
Defined.

(** ** C9: keys that are always there *)

(** C9.  A returned tag dictionary has the keys [name] and [building]; and
    whenever the earlier blocks have run, the tags they leave have the key
    [building], so the read [tags["building"]] of the status block under
    status code "01" does not raise. *)
Theorem name_and_building_present (a : gmap string pyval) :
  (∀ tags, filter_tags (Some a) = Ok (Some tags) →
     is_Some (tags !! "name") ∧ is_Some (tags !! "building")) ∧
  (∀ pre, earlier_blocks a = Ok pre →
     (∃ b, getitem pre "building" = Ok b) ∧
     (a !! "edifc_stat" = Some (PStr "01") →
      ∃ tags, status_block a pre = Ok tags)).
Proof.
  split.
  - intros tags Ht. destruct (filter_tags_Ok_inv a tags Ht) as [f Hf].
    destruct (filter_tags_fields a f Hf) as (b & Hb & Hft).
    assert (tags = status_result (stat f) b (setitems (earlier_writes f) ∅))
      as -> by congruence.
    split.
    + rewrite status_result_other, setitems_empty_lookup by done.
      rewrite (earlier_untouched _ _ untouched_name).
      unfold sot_writes, name_writes. by destruct (py_eq (sot f) "02").
    + rewrite status_result_building, setitems_empty_lookup, Hb.
      by destruct (py_eq (stat f) "01").
  - intros pre Hpre.
    destruct (earlier_blocks_Ok_inv a pre Hpre) as (n & vs & vt & vu & vg & Hf).
    set (f := Fields n vs vt vu vg (PStr "01")).
    assert (pre = setitems (earlier_writes f) ∅) as ->.
    { rewrite (earlier_blocks_fields a f (Hf _)) in Hpre. congruence. }
    destruct (earlier_building_Some f) as [b Hb].
    rewrite <-setitems_empty_lookup in Hb. split.
    + exists b. by apply getitem_Some.
    + intros Hst. eexists.
      apply (status_block_fields a f _ b); [|exact Hb].
      split; [apply Hf|exact Hst].
Qed.

Lemma name_and_building_present_witness :
  (∀ tags,
     filter_tags (Some (record (PStr "UNK") PNone PNone PNone PNone
                          (PStr "01"))) = Ok (Some tags) →
     is_Some (tags !! "name") ∧ is_Some (tags !! "building")) ∧
  ∃ tags,
    filter_tags (Some (record (PStr "UNK") PNone PNone PNone PNone
                         (PStr "01"))) = Ok (Some tags) ∧
    status_block (record (PStr "UNK") PNone PNone PNone PNone (PStr "01"))
      (<["building" := "yes"]> {["name" := ""]})
    = Ok tags.
Proof.
  pose proof (name_and_building_present
                (record (PStr "UNK") PNone PNone PNone PNone (PStr "01")))
    as (H1 & H2).
  split; [exact H1|].
  destruct (H2 (<["building" := "yes"]> {["name" := ""]}))
    as (_ & H3); [reflexivity|].
  destruct (H3 eq_refl) as [tags Ht]. exists tags. split; [|exact Ht].
  vm_compute in Ht. injection Ht as <-. reflexivity.
Defined.

(** ** C10: two fix-up notes under two keys *)

(** C10.  The note of the underground block is under [fixme:buildind],
    the note of the status block under [fixme:building]; with underground
    flag "02" and status code "01" or "02" the returned tags hold both. *)
Theorem both_fixme_notes (a : gmap string pyval) (f : fields) :
  has_fields a f → sot f = PStr "02" →
  stat f = PStr "01" ∨ stat f = PStr "02" →
  ∃ tags, filter_tags (Some a) = Ok (Some tags) ∧
    tags !! "fixme:buildind"
    = Some "Check location, if not verifiable remove geometry" ∧
    tags !! "fixme:building"
    = Some (if py_eq (stat f) "01"
            then "resurvey construction type and status"
            else "resurvey status") ∧
    "fixme:buildind" ≠ "fixme:building".
Proof.
  intros Hf Hs Hst. destruct (filter_tags_fields a f Hf) as (b & _ & ->).
  eexists; split; [done|]. split; [|split; [|done]].
  - rewrite status_result_other, setitems_empty_lookup by done.
    by rewrite (earlier_untouched _ _ untouched_fixme_buildind), Hs.
  - rewrite status_result_note. by destruct Hst as [-> | ->].
Qed.

Lemma both_fixme_notes_witness :
  (∃ tags,
     filter_tags (Some (record (PStr "Cisterna") (PStr "02") (PStr "95")
                          (PStr "0804") PNone (PStr "01")))
     = Ok (Some tags) ∧
     tags !! "fixme:buildind"
     = Some "Check location, if not verifiable remove geometry" ∧
     tags !! "fixme:building"
     = Some "resurvey construction type and status" ∧
     "fixme:buildind" ≠ "fixme:building") ∧
  (∃ tags,
     filter_tags (Some (record (PStr "Cisterna") (PStr "02") (PStr "95")
                          (PStr "0804") PNone (PStr "02")))
     = Ok (Some tags) ∧
     tags !! "fixme:buildind"
     = Some "Check location, if not verifiable remove geometry" ∧
     tags !! "fixme:building" = Some "resurvey status" ∧
     "fixme:buildind" ≠ "fixme:building").
Proof.
  split.
  - apply (both_fixme_notes
             (record (PStr "Cisterna") (PStr "02") (PStr "95") (PStr "0804")
                PNone (PStr "01"))
             (Fields "Cisterna" (PStr "02") (PStr "95") (PStr "0804") PNone
                (PStr "01"))).
    + repeat split; reflexivity.
    + reflexivity.
    + left; reflexivity.
  - apply (both_fixme_notes
             (record (PStr "Cisterna") (PStr "02") (PStr "95") (PStr "0804")
                PNone (PStr "02"))
             (Fields "Cisterna" (PStr "02") (PStr "95") (PStr "0804") PNone
                (PStr "02"))).
    + repeat split; reflexivity.
    + reflexivity.
    + right; reflexivity.
Defined.

(** * Further properties of [filter_tags] *)

(** ** Membership in what a block assigns *)

Lemma last_write_elem_of k v (ws : writes) :
  last_write k ws = Some v → (k, v) ∈ ws.
Proof.
  induction ws as [|[k' v'] ws IH]; cbn; [done|].
  destruct (last_write k ws) as [x|].
  - intros [= ->]. by apply list_elem_of_further, IH.
  - destruct (String.eqb_spec k' k) as [->|_]; [|done].
    intros [= ->]. apply list_elem_of_here.
Qed.

Lemma last_write_is_Some k (ws : writes) :
  is_Some (last_write k ws) ↔ k ∈ keys ws.
Proof.
  unfold keys. induction ws as [|[k' v'] ws IH]; cbn.
  - split; [by intros [? ?]|by intros ?%elem_of_nil].
  - rewrite elem_of_cons, <-IH. destruct (last_write k ws) as [x|].
    + split; [by right|by eexists].
    + destruct (String.eqb_spec k' k) as [->|Hne].
      * split; [by left|by eexists].
      * split; [by intros [? ?]|]. intros [->|[? ?]]; done.
Qed.

Lemma match_case_elem_of (kv : string * string) cs d v :
  kv ∈ default d (match_case cs v) →
  kv ∈ d ∨ kv ∈ List.concat (bodies cs).
Proof.
  destruct (match_case cs v) as [ws|] eqn:E; cbn; [|by left].
  intros Hkv. right. apply match_case_bodies in E.
  apply list_elem_of_In, in_concat. exists ws.
  split; by apply list_elem_of_In.
Qed.

(** ** The boundary check *)

Lemma ty_no_fixme_geometry v :
  last_write "fixme:geometry" (edifc_ty_writes v) = None.
Proof.
  apply (match_case_Forall (λ ws, last_write "fixme:geometry" ws = None));
    [done|by_table].
Qed.

Lemma uso_no_fixme_geometry v :
  last_write "fixme:geometry" (edifc_uso_writes v) = None.
Proof.
  apply (match_case_Forall (λ ws, last_write "fixme:geometry" ws = None));
    [done|by_table].
Qed.

Lemma check_geom_writes_01 v :
  check_geom_writes v
  = if py_eq v "01"
    then [("fixme:geometry", "check if the building is cut on regional border")]
    else [].
Proof.
  unfold check_geom_writes. cbn. unfold clause_matches. cbn.
  by destruct (py_eq v "01").
Qed.

(** The returned tags hold [fixme:geometry] exactly when the boundary
    check field is "01", whatever the other five fields are. *)
Theorem geometry_note_iff (a : gmap string pyval) (f : fields) :
  has_fields a f →
  ∃ tags, filter_tags (Some a) = Ok (Some tags) ∧
    tags !! "fixme:geometry"
    = (if py_eq (geom f) "01"
       then Some "check if the building is cut on regional border"
       else None).
Proof.
  intros Hf. destruct (filter_tags_fields a f Hf) as (b & _ & ->).
  eexists; split; [done|].
  rewrite status_result_other, setitems_empty_lookup by done.
  unfold earlier_writes.
  rewrite !last_write_app, uso_no_fixme_geometry, ty_no_fixme_geometry.
  rewrite check_geom_writes_01. unfold sot_writes, name_writes.
  destruct (py_eq (geom f) "01"); [done|]. by destruct (py_eq (sot f) "02").
Qed.

Lemma geometry_note_iff_witness :
  (∃ tags,
     filter_tags (Some (record (PStr "Dogana") (PStr "02") (PStr "07")
                          (PStr "030104") (PStr "01") (PStr "01")))
     = Ok (Some tags) ∧
     tags !! "fixme:geometry"
     = Some "check if the building is cut on regional border") ∧
  (∃ tags,
     filter_tags (Some (record (PStr "Dogana") (PStr "02") (PStr "07")
                          (PStr "030104") (PStr "02") (PStr "01")))
     = Ok (Some tags) ∧
     tags !! "fixme:geometry" = None).
Proof.
  split.
  - apply (geometry_note_iff
             (record (PStr "Dogana") (PStr "02") (PStr "07") (PStr "030104")
                (PStr "01") (PStr "01"))
             (Fields "Dogana" (PStr "02") (PStr "07") (PStr "030104")
                (PStr "01") (PStr "01"))).
    repeat split; reflexivity.
  - apply (geometry_note_iff
             (record (PStr "Dogana") (PStr "02") (PStr "07") (PStr "030104")
                (PStr "02") (PStr "01"))
             (Fields "Dogana" (PStr "02") (PStr "07") (PStr "030104")
                (PStr "02") (PStr "01"))).
    repeat split; reflexivity.
Defined.

(** ** The status block: ruins, and what it leaves alone *)

(** Under status code "02" the method returns the tags of the earlier
    blocks with [ruins=yes] and the resurvey note added: every other key,
    the building type among them, keeps its value. *)
Theorem ruins_overlay (a : gmap string pyval) (f : fields) :
  has_fields a f → stat f = PStr "02" →
  ∃ pre tags,
    earlier_blocks a = Ok pre ∧ filter_tags (Some a) = Ok (Some tags) ∧
    tags !! "ruins" = Some "yes" ∧
    tags !! "fixme:building" = Some "resurvey status" ∧
    tags !! "construction" = None ∧
    (∀ k, k ≠ "ruins" → k ≠ "fixme:building" → tags !! k = pre !! k).
Proof.
  intros Hf Hst. destruct (filter_tags_fields a f Hf) as (b & _ & Hft).
  exists (setitems (earlier_writes f) ∅). eexists.
  split; [by apply earlier_blocks_fields, Hf|]. split; [exact Hft|].
  rewrite Hst. unfold status_result. cbn [py_eq String.eqb Ascii.eqb Bool.eqb].
  split; [by rewrite lookup_insert_ne, lookup_insert_eq|].
  split; [by rewrite lookup_insert_eq|]. split.
  - rewrite !lookup_insert_ne, setitems_empty_lookup by done.
    rewrite (earlier_untouched _ _ untouched_construction).
    unfold sot_writes. cbn. by destruct (py_eq (sot f) "02").
  - intros k H1 H2. by rewrite !lookup_insert_ne.
Qed.

Lemma ruins_overlay_witness :
  ∃ pre tags,
    earlier_blocks (record (PStr "Rocca") (PStr "01") (PStr "10") (PStr "05")
                      PNone (PStr "02")) = Ok pre ∧
    filter_tags (Some (record (PStr "Rocca") (PStr "01") (PStr "10")
                         (PStr "05") PNone (PStr "02"))) = Ok (Some tags) ∧
    tags !! "ruins" = Some "yes" ∧
    tags !! "fixme:building" = Some "resurvey status" ∧
    tags !! "construction" = None ∧
    (∀ k, k ≠ "ruins" → k ≠ "fixme:building" → tags !! k = pre !! k).
Proof.
  apply (ruins_overlay
           (record (PStr "Rocca") (PStr "01") (PStr "10") (PStr "05") PNone
              (PStr "02"))
           (Fields "Rocca" (PStr "01") (PStr "10") (PStr "05") PNone
              (PStr "02"))).
  - repeat split; reflexivity.
  - reflexivity.
Defined.

(** Whatever the status code, the status block changes nothing under a
    key other than [building], [construction], [fixme:building] and
    [ruins]: the name, the underground tags, the auxiliary tags of the type
    code and the tags of the use code come out as the earlier blocks left
    them. *)
Theorem status_frame (a : gmap string pyval) (f : fields) (k : string) :
  has_fields a f →
  k ∉ ["building"; "construction"; "fixme:building"; "ruins"] →
  ∃ pre tags,
    earlier_blocks a = Ok pre ∧ filter_tags (Some a) = Ok (Some tags) ∧
    tags !! k = pre !! k.
Proof.
  intros Hf Hk. destruct (filter_tags_fields a f Hf) as (b & _ & Hft).
  exists (setitems (earlier_writes f) ∅). eexists.
  split; [by apply earlier_blocks_fields, Hf|]. split; [exact Hft|].
  apply status_result_other; intros ->; apply Hk; set_solver.
Qed.

Lemma status_frame_witness :
  ∃ pre tags,
    earlier_blocks (record (PStr "Torre") (PStr "02") (PStr "07")
                      (PStr "0806") PNone (PStr "01")) = Ok pre ∧
    filter_tags (Some (record (PStr "Torre") (PStr "02") (PStr "07")
                         (PStr "0806") PNone (PStr "01"))) = Ok (Some tags) ∧
    tags !! "tower:type" = pre !! "tower:type".
Proof.
  apply (status_frame
           (record (PStr "Torre") (PStr "02") (PStr "07") (PStr "0806") PNone
              (PStr "01"))
           (Fields "Torre" (PStr "02") (PStr "07") (PStr "0806") PNone
              (PStr "01"))).
  - repeat split; reflexivity.
  - apply (bool_decide_unpack _). reflexivity.
Defined.

(** Under status code "01", when the earlier blocks leave the generic
    building type "yes", no [construction] tag is written: the record comes
    out as [building=construction] alone. *)
Theorem construction_without_type (a : gmap string pyval) (f : fields)
    (pre : gmap string string) :
  has_fields a f → stat f = PStr "01" →
  earlier_blocks a = Ok pre → pre !! "building" = Some "yes" →
  ∃ tags, filter_tags (Some a) = Ok (Some tags) ∧
    tags !! "building" = Some "construction" ∧
    tags !! "construction" = None.
Proof.
  intros Hf Hst Hpre Hb.
  destruct (filter_tags_fields a f Hf) as (b & Hb' & ->).
  assert (pre = setitems (earlier_writes f) ∅) as ->.
  { rewrite (earlier_blocks_fields a f (proj1 Hf)) in Hpre. congruence. }
  rewrite setitems_empty_lookup in Hb. assert (b = "yes") as -> by congruence.
  eexists; split; [done|]. rewrite Hst. split.
  - by rewrite status_result_building.
  - unfold status_result. cbn [py_eq String.eqb Ascii.eqb Bool.eqb negb].
    rewrite !lookup_insert_ne, setitems_empty_lookup by done.
    rewrite (earlier_untouched _ _ untouched_construction).
    unfold sot_writes. cbn. by destruct (py_eq (sot f) "02").
Qed.

Lemma construction_without_type_witness :
  ∃ tags,
    filter_tags (Some (record (PStr "Mura") (PStr "01") (PStr "25")
                         (PStr "100104") PNone (PStr "01")))
    = Ok (Some tags) ∧
    tags !! "building" = Some "construction" ∧
    tags !! "construction" = None.
Proof.
  apply (construction_without_type
           (record (PStr "Mura") (PStr "01") (PStr "25") (PStr "100104") PNone
              (PStr "01"))
           (Fields "Mura" (PStr "01") (PStr "25") (PStr "100104") PNone
              (PStr "01"))
           (<["tourism" := "museum"]> (<["historic" := "citywalls"]>
              (<["building" := "yes"]> {["name" := "Mura"]})))).
  - repeat split; reflexivity.
  - reflexivity.
  - reflexivity.
  - reflexivity.
Defined.

(** ** The use code *)

(** A use code that is none of the literals of the [match] statement,
    [None] included, leaves the tags as they are: codes match by equality,
    so a code that only extends or shortens a known one gets nothing. *)
Theorem use_block_unknown_code (a : gmap string pyval) (v : pyval)
    (tags : gmap string string) :
  a !! "edifc_uso" = Some v →
  (∀ c, c ∈ patterns edifc_uso_cases → v ≠ PStr c) →
  use_block a tags = Ok tags.
Proof.
  intros Hv Hc. unfold use_block, edifc_uso_writes.
  rewrite (getitem_Some _ _ _ Hv). cbn [mbind result_bind].
  by rewrite (match_case_None _ _ Hc).
Qed.

Lemma use_block_unknown_code_witness :
  use_block {["edifc_uso" := PStr "020"]} {["building" := "church"]}
  = Ok {["building" := "church"]} ∧
  use_block {["edifc_uso" := PNone]} {["building" := "church"]}
  = Ok {["building" := "church"]}.
Proof.
  split.
  - apply (use_block_unknown_code _ (PStr "020")); [reflexivity|].
    intros c Hc [= <-]. revert Hc.
    apply (bool_decide_unpack (¬ _)). vm_compute. exact I.
  - apply (use_block_unknown_code _ PNone); [reflexivity|].
    intros c _. discriminate.
Defined.

(** When the use code assigns no building type (its clause has none, or
    no clause matches) the returned building type is the type code's, or
    "construction" under status code "01". *)
Theorem type_building_kept (a : gmap string pyval) (f : fields) (b : string) :
  has_fields a f →
  last_write "building" (edifc_uso_writes (uso f)) = None →
  last_write "building" (edifc_ty_writes (ty f)) = Some b →
  ∃ tags, filter_tags (Some a) = Ok (Some tags) ∧
    tags !! "building"
    = Some (if py_eq (stat f) "01" then "construction" else b).
Proof.
  intros Hf Hu Ht. destruct (filter_tags_fields a f Hf) as (b0 & Hb0 & ->).
  eexists; split; [done|].
  rewrite status_result_building. destruct (py_eq (stat f) "01"); [done|].
  by rewrite setitems_empty_lookup, earlier_building, Hu, Ht.
Qed.

Lemma type_building_kept_witness :
  ∃ tags,
    filter_tags (Some (record (PStr "Duomo") (PStr "01") (PStr "22")
                         (PStr "05") PNone (PStr "02")))
    = Ok (Some tags) ∧
    tags !! "building" = Some "cathedral".
Proof.
  apply (type_building_kept
           (record (PStr "Duomo") (PStr "01") (PStr "22") (PStr "05") PNone
              (PStr "02"))
           (Fields "Duomo" (PStr "01") (PStr "22") (PStr "05") PNone
              (PStr "02"))
           "cathedral").
  - repeat split; reflexivity.
  - reflexivity.
  - reflexivity.
Defined.

(** ** The clauses of the two tables *)

(** No clause is shadowed by an earlier one: each literal of a [case]
    selects the body of its own clause, in the type code table and in the
    use code table. *)
Theorem clauses_all_reachable (pats : list string) (ws : writes) (c : string) :
  c ∈ pats →
  ((pats, ws) ∈ edifc_ty_cases → edifc_ty_writes (PStr c) = ws) ∧
  ((pats, ws) ∈ edifc_uso_cases → edifc_uso_writes (PStr c) = ws).
Proof.
  intros Hc. split; intros Hcl.
  - assert (Forall (λ cl : clause, Forall
              (λ c, edifc_ty_writes (PStr c) = cl.2) cl.1) edifc_ty_cases)
      as Hall by by_table.
    rewrite Forall_forall in Hall. specialize (Hall _ Hcl).
    rewrite Forall_forall in Hall. by apply Hall.
  - assert (Forall (λ cl : clause, Forall
              (λ c, edifc_uso_writes (PStr c) = cl.2) cl.1) edifc_uso_cases)
      as Hall by by_table.
    rewrite Forall_forall in Hall. specialize (Hall _ Hcl).
    rewrite Forall_forall in Hall. by apply Hall.
Qed.

Lemma clauses_all_reachable_witness :
  edifc_uso_writes (PStr "080206")
  = [("building", "service"); ("utility", "power")].
Proof.
  apply (clauses_all_reachable
           ["0802"; "080201"; "080202"; "080203"; "080206"]
           [("building", "service"); ("utility", "power")] "080206").
  - apply (bool_decide_unpack _). reflexivity.
  - apply (bool_decide_unpack _). reflexivity.
Defined.

(** The type code and the use code compete for two keys only: a key that
    the bodies run for a type code and for a use code both assign is
    [building] or [man_made]. *)
Theorem type_and_use_shared_keys (k : string) (vt vu : pyval) :
  k ∈ keys (edifc_ty_writes vt) → k ∈ keys (edifc_uso_writes vu) →
  k = "building" ∨ k = "man_made".
Proof.
  intros Ht Hu. revert k Ht Hu.
  apply (match_case_Forall
           (λ ws1, ∀ k, k ∈ keys ws1 → k ∈ keys (edifc_uso_writes vu) →
                        k = "building" ∨ k = "man_made")).
  - intros k Hk _. left. cbn in Hk.
    by apply elem_of_cons in Hk as [->|?%elem_of_nil].
  - apply Forall_forall. intros ws1 H1 k Hk.
    apply (match_case_Forall
      (λ ws2, k ∈ keys ws2 → k = "building" ∨ k = "man_made")).
    + by intros ?%elem_of_nil.
    + apply Forall_forall. intros ws2 H2 Hk2.
      assert (Forall (λ ws1, Forall (λ ws2, Forall
                (λ k, k ∈ keys ws2 → k ∈ ["building"; "man_made"])
                (keys ws1)) (bodies edifc_uso_cases)) (bodies edifc_ty_cases))
        as Hall by by_table.
      rewrite Forall_forall in Hall. specialize (Hall _ H1).
      rewrite Forall_forall in Hall. specialize (Hall _ H2).
      rewrite Forall_forall in Hall. specialize (Hall _ Hk Hk2).
      apply elem_of_cons in Hall as [->|Hall]; [by left|right].
      by apply elem_of_cons in Hall as [->|?%elem_of_nil].
Qed.

Lemma type_and_use_shared_keys_witness :
  "man_made" = "building" ∨ "man_made" = "man_made".
Proof.
  apply (type_and_use_shared_keys "man_made" (PStr "07") (PStr "0804")).
  - apply (bool_decide_unpack _). reflexivity.
  - apply (bool_decide_unpack _). reflexivity.
Defined.

(** ** Each block on its own field *)

Lemma py_not_false a : a ≠ ∅ → py_not (Some a) = false.
Proof. intros H. cbn. by apply bool_decide_eq_false. Qed.

Lemma name_block_str a n tags :
  a !! "edifc_nome" = Some (PStr n) →
  name_block a tags = Ok (setitems (name_writes n) tags).
Proof.
  intros Hn. unfold name_block. rewrite (getitem_Some _ _ _ Hn). cbn.
  by destruct (negb _).
Qed.

Lemma underground_block_val a v tags :
  a !! "edifc_sot" = Some v →
  underground_block a tags = Ok (setitems (sot_writes v) tags).
Proof.
  intros Hs. unfold underground_block, sot_writes.
  rewrite (getitem_Some _ _ _ Hs). cbn. by destruct (py_eq _ _).
Qed.

Lemma structural_block_val a v tags :
  a !! "edifc_ty" = Some v →
  structural_block a tags = Ok (setitems (edifc_ty_writes v) tags).
Proof. intros H. unfold structural_block. by rewrite (getitem_Some _ _ _ H). Qed.

Lemma use_block_val a v tags :
  a !! "edifc_uso" = Some v →
  use_block a tags = Ok (setitems (edifc_uso_writes v) tags).
Proof. intros H. unfold use_block. by rewrite (getitem_Some _ _ _ H). Qed.

Lemma geometry_block_val a v tags :
  a !! "check_geom" = Some v →
  geometry_block a tags = Ok (setitems (check_geom_writes v) tags).
Proof. intros H. unfold geometry_block. by rewrite (getitem_Some _ _ _ H). Qed.

(** What the method does from its first failing read on. *)
Lemma filter_tags_no_nome a :
  a ≠ ∅ → a !! "edifc_nome" = None →
  filter_tags (Some a) = Raise (KeyError "edifc_nome").
Proof.
  intros Hne H. unfold filter_tags. rewrite (py_not_false a Hne).
  unfold earlier_blocks, name_block. by rewrite (getitem_None _ _ H).
Qed.

Lemma filter_tags_null_nome a :
  a !! "edifc_nome" = Some PNone → filter_tags (Some a) = Raise TypeError.
Proof.
  intros H. unfold filter_tags. rewrite py_not_false.
  - unfold earlier_blocks, name_block. by rewrite (getitem_Some _ _ _ H).
  - intros ->. by rewrite lookup_empty in H.
Qed.

Lemma filter_tags_no_sot a n :
  a !! "edifc_nome" = Some (PStr n) → a !! "edifc_sot" = None →
  filter_tags (Some a) = Raise (KeyError "edifc_sot").
Proof.
  intros Hn H. unfold filter_tags. rewrite py_not_false.
  - unfold earlier_blocks. rewrite (name_block_str a n) by done.
    cbn [mbind result_bind]. unfold underground_block.
    by rewrite (getitem_None _ _ H).
  - intros ->. by rewrite lookup_empty in Hn.
Qed.

Lemma filter_tags_no_ty a n vs :
  a !! "edifc_nome" = Some (PStr n) → a !! "edifc_sot" = Some vs →
  a !! "edifc_ty" = None →
  filter_tags (Some a) = Raise (KeyError "edifc_ty").
Proof.
  intros Hn Hs H. unfold filter_tags. rewrite py_not_false.
  - unfold earlier_blocks. rewrite (name_block_str a n) by done.
    cbn [mbind result_bind]. rewrite (underground_block_val a vs) by done.
    cbn [mbind result_bind]. unfold structural_block.
    by rewrite (getitem_None _ _ H).
  - intros ->. by rewrite lookup_empty in Hn.
Qed.

Lemma filter_tags_no_uso a n vs vt :
  a !! "edifc_nome" = Some (PStr n) → a !! "edifc_sot" = Some vs →
  a !! "edifc_ty" = Some vt → a !! "edifc_uso" = None →
  filter_tags (Some a) = Raise (KeyError "edifc_uso").
Proof.
  intros Hn Hs Ht H. unfold filter_tags. rewrite py_not_false.
  - unfold earlier_blocks. rewrite (name_block_str a n) by done.
    cbn [mbind result_bind]. rewrite (underground_block_val a vs) by done.
    cbn [mbind result_bind]. rewrite (structural_block_val a vt) by done.
    cbn [mbind result_bind]. unfold use_block.
    by rewrite (getitem_None _ _ H).
  - intros ->. by rewrite lookup_empty in Hn.
Qed.

Lemma filter_tags_no_geom a n vs vt vu :
  a !! "edifc_nome" = Some (PStr n) → a !! "edifc_sot" = Some vs →
  a !! "edifc_ty" = Some vt → a !! "edifc_uso" = Some vu →
  a !! "check_geom" = None →
  filter_tags (Some a) = Raise (KeyError "check_geom").
Proof.
  intros Hn Hs Ht Hu H. unfold filter_tags. rewrite py_not_false.
  - unfold earlier_blocks. rewrite (name_block_str a n) by done.
    cbn [mbind result_bind]. rewrite (underground_block_val a vs) by done.
    cbn [mbind result_bind]. rewrite (structural_block_val a vt) by done.
    cbn [mbind result_bind]. rewrite (use_block_val a vu) by done.
    cbn [mbind result_bind]. unfold geometry_block.
    by rewrite (getitem_None _ _ H).
  - intros ->. by rewrite lookup_empty in Hn.
Qed.

Lemma filter_tags_no_stat a f :
  has_earlier_fields a f → a !! "edifc_stat" = None →
  filter_tags (Some a) = Raise (KeyError "edifc_stat").
Proof.
  intros Hf H. unfold filter_tags. rewrite py_not_false.
  - rewrite (earlier_blocks_fields a f Hf). cbn [mbind result_bind].
    unfold status_block. by rewrite (getitem_None _ _ H).
  - intros ->. destruct Hf as (Hn & _). by rewrite lookup_empty in Hn.
Qed.

(** ** Which exception *)

(** On a non-empty record with a missing field the method raises
    [KeyError] for the first field, in the order of the reads (name,
    underground flag, type code, use code, boundary check, status code),
    that the record lacks; a name that is there is taken to be a string. *)
Theorem first_missing_field_raised (a : gmap string pyval) (i : nat)
    (k : string) :
  a ≠ ∅ →
  field_reads !! i = Some k → a !! k = None →
  (∀ j k', (j < i)%nat → field_reads !! j = Some k' → is_Some (a !! k')) →
  (∀ v, a !! "edifc_nome" = Some v → v ≠ PNone) →
  filter_tags (Some a) = Raise (KeyError k).
Proof.
  intros Hne Hi Hk Hbefore Hstr.
  assert (∀ j k', (j < i)%nat → field_reads !! j = Some k' →
                  ∃ v, a !! k' = Some v) as Hb.
  { intros j k' Hj Hk'. by destruct (Hbefore j k' Hj Hk') as [v ?]; exists v. }
  destruct i as [|i]; [injection Hi as <-; by apply filter_tags_no_nome|].
  destruct (Hb 0%nat "edifc_nome") as [[|n] Hn]; [lia|done|by destruct (Hstr _ Hn)|].
  destruct i as [|i]; [injection Hi as <-; by apply filter_tags_no_sot with n|].
  destruct (Hb 1%nat "edifc_sot") as [vs Hs]; [lia|done|].
  destruct i as [|i];
    [injection Hi as <-; by apply filter_tags_no_ty with n vs|].
  destruct (Hb 2%nat "edifc_ty") as [vt Ht]; [lia|done|].
  destruct i as [|i];
    [injection Hi as <-; by apply filter_tags_no_uso with n vs vt|].
  destruct (Hb 3%nat "edifc_uso") as [vu Hu]; [lia|done|].
  destruct i as [|i];
    [injection Hi as <-; by apply filter_tags_no_geom with n vs vt vu|].
  destruct (Hb 4%nat "check_geom") as [vg Hg]; [lia|done|].
  destruct i as [|i]; [|done]. injection Hi as <-.
  by apply filter_tags_no_stat with (Fields n vs vt vu vg PNone).
Qed.

Lemma first_missing_field_raised_witness :
  filter_tags (Some (<["edifc_nome" := PStr "Teatro"]>
                       (<["edifc_sot" := PStr "01"]>
                          {["edifc_stat" := PStr "01"]})))
  = Raise (KeyError "edifc_ty").
Proof.
  apply (first_missing_field_raised
           (<["edifc_nome" := PStr "Teatro"]>
              (<["edifc_sot" := PStr "01"]> {["edifc_stat" := PStr "01"]}))
           2 "edifc_ty").
  - discriminate.
  - reflexivity.
  - reflexivity.
  - intros [|[|j]] k' Hj Hk'; [| |lia]; injection Hk' as <-;
      eexists; reflexivity.
  - intros v [= <-]. discriminate.
Defined.

(** The method raises nothing else: [TypeError] exactly when the name is
    [None], otherwise [KeyError] for one of the six fields, which the
    record lacks.  In particular the read [tags["building"]] of the
    status block never raises. *)
Theorem filter_tags_raises (a : gmap string pyval) (e : exn) :
  filter_tags (Some a) = Raise e →
  (e = TypeError ↔ a !! "edifc_nome" = Some PNone) ∧
  (∀ k, e = KeyError k → k ∈ field_reads ∧ a !! k = None) ∧
  e ≠ KeyError "building".
Proof.
  intros He.
  assert (a ≠ ∅) as Hne.
  { intros ->. discriminate He. }
  assert ((e = TypeError ∧ a !! "edifc_nome" = Some PNone) ∨
          (∃ k, e = KeyError k ∧ k ∈ field_reads ∧ a !! k = None ∧
                a !! "edifc_nome" ≠ Some PNone)) as Hcases.
  { destruct (a !! "edifc_nome") as [[|n]|] eqn:Hn.
    { left. rewrite (filter_tags_null_nome a Hn) in He. by injection He as <-. }
    2:{ right. rewrite (filter_tags_no_nome a Hne Hn) in He.
        injection He as <-. exists "edifc_nome".
        repeat split; [|done|done]. apply (bool_decide_unpack _). reflexivity. }
    right.
    destruct (a !! "edifc_sot") as [vs|] eqn:Hs.
    2:{ rewrite (filter_tags_no_sot a n Hn Hs) in He. injection He as <-.
        exists "edifc_sot".
        repeat split; [|done|done]. apply (bool_decide_unpack _). reflexivity. }
    destruct (a !! "edifc_ty") as [vt|] eqn:Ht.
    2:{ rewrite (filter_tags_no_ty a n vs Hn Hs Ht) in He. injection He as <-.
        exists "edifc_ty".
        repeat split; [|done|done]. apply (bool_decide_unpack _). reflexivity. }
    destruct (a !! "edifc_uso") as [vu|] eqn:Hu.
    2:{ rewrite (filter_tags_no_uso a n vs vt Hn Hs Ht Hu) in He.
        injection He as <-. exists "edifc_uso".
        repeat split; [|done|done]. apply (bool_decide_unpack _). reflexivity. }
    destruct (a !! "check_geom") as [vg|] eqn:Hg.
    2:{ rewrite (filter_tags_no_geom a n vs vt vu Hn Hs Ht Hu Hg) in He.
        injection He as <-. exists "check_geom".
        repeat split; [|done|done]. apply (bool_decide_unpack _). reflexivity. }
    assert (has_earlier_fields a (Fields n vs vt vu vg PNone)) as Hf
      by by repeat split.
    destruct (a !! "edifc_stat") as [vst|] eqn:Hst.
    - destruct (filter_tags_fields a (Fields n vs vt vu vg vst)) as (b & _ & H).
      { by split. }
      congruence.
    - rewrite (filter_tags_no_stat a _ Hf Hst) in He. injection He as <-.
      exists "edifc_stat".
      repeat split; [|done|done]. apply (bool_decide_unpack _). reflexivity. }
  destruct Hcases as [[-> Hn]|(k & -> & Hk & Hnone & Hn)].
  - split; [done|]. split; [by intros k [=]|done].
  - split; [split; [done|by intros ?]|]. split.
    + by intros k' [= <-].
    + intros [= ->]. revert Hk. apply (bool_decide_unpack (¬ _)).
      vm_compute. exact I.
Qed.

Lemma filter_tags_raises_witness :
  (TypeError = TypeError ↔
   record PNone (PStr "02") (PStr "04") (PStr "02") PNone (PStr "01")
   !! "edifc_nome" = Some PNone) ∧
  (∀ k, TypeError = KeyError k →
        k ∈ field_reads ∧
        record PNone (PStr "02") (PStr "04") (PStr "02") PNone (PStr "01")
        !! k = None) ∧
  TypeError ≠ KeyError "building".
Proof.
  apply (filter_tags_raises
           (record PNone (PStr "02") (PStr "04") (PStr "02") PNone
              (PStr "01")) TypeError).
  reflexivity.
Defined.

(** ** Fields the method does not read *)

(** The result depends on the six fields alone: two non-empty records
    that agree on them give the same tags, or the same exception, whatever
    other fields (primary key, object id, perimeter, area, ...) they
    carry. *)
Theorem other_fields_ignored (a a' : gmap string pyval) :
  a ≠ ∅ → a' ≠ ∅ →
  (∀ k, k ∈ field_reads → a !! k = a' !! k) →
  filter_tags (Some a) = filter_tags (Some a').
Proof.
  intros Hne Hne' Hagree.
  assert (∀ k, k ∈ field_reads → getitem a k = getitem a' k) as Hget.
  { intros k Hk. unfold getitem. by rewrite (Hagree k Hk). }
  unfold filter_tags. rewrite !py_not_false by done.
  unfold earlier_blocks, name_block, underground_block, structural_block,
    use_block, geometry_block, status_block.
  rewrite (Hget "edifc_nome"), (Hget "edifc_sot"), (Hget "edifc_ty"),
    (Hget "edifc_uso"), (Hget "check_geom"), (Hget "edifc_stat");
    first [done | apply (bool_decide_unpack _); reflexivity].
Qed.

Lemma other_fields_ignored_witness :
  filter_tags (Some (<["OBJECTID" := PStr "4711"]>
                       (<["shape_Area" := PStr "120.5"]>
                          (record (PStr "Stazione") (PStr "01") (PStr "95")
                             (PStr "060301") PNone (PStr "91")))))
  = filter_tags (Some (record (PStr "Stazione") (PStr "01") (PStr "95")
                         (PStr "060301") PNone (PStr "91"))).
Proof.
  apply other_fields_ignored.
  - discriminate.
  - discriminate.
  - intros k Hk.
    repeat (apply elem_of_cons in Hk as [->|Hk]; [reflexivity|]).
    by apply elem_of_nil in Hk.
Defined.

(** ** Where the returned tags come from *)

Lemma earlier_writes_elem_of f (kv : string * string) :
  kv ∈ earlier_writes f → kv = ("name", nome f) ∨ kv ∈ earlier_literals.
Proof.
  unfold earlier_writes, earlier_literals.
  rewrite !elem_of_app. intros [H|[H|[H|[H|H]]]].
  - unfold name_writes in H. apply elem_of_cons in H as [->|H%elem_of_nil];
      [|done].
    destruct (negb _); [by left|right; apply list_elem_of_here].
  - right. apply list_elem_of_further. rewrite !elem_of_app. left.
    unfold sot_writes in H. destruct (py_eq _ _); [done|by apply elem_of_nil in H].
  - right. apply list_elem_of_further. rewrite !elem_of_app.
    apply match_case_elem_of in H as [H|H]; auto.
  - right. apply list_elem_of_further. rewrite !elem_of_app.
    apply match_case_elem_of in H as [H%elem_of_nil|H]; [done|auto].
  - right. apply list_elem_of_further. rewrite !elem_of_app.
    apply match_case_elem_of in H as [H%elem_of_nil|H]; [done|auto 6].
Qed.

Lemma status_result_lookup_cases v0 b pre k v :
  status_result v0 b pre !! k = Some v →
  pre !! k = Some v ∨ (k, v) ∈ status_writes ∨
  (k = "construction" ∧ v = b ∧ b ≠ "yes").
Proof.
  unfold status_result, status_writes.
  destruct (py_eq v0 "01"); [|destruct (py_eq v0 "02")].
  - intros [[<- <-]|[_ H]]%lookup_insert_Some.
    { right; left. apply list_elem_of_further, list_elem_of_here. }
    apply lookup_insert_Some in H as [[<- <-]|[_ H]].
    { right; left. apply list_elem_of_here. }
    destruct (String.eqb_spec b "yes") as [->|Hb]; cbn [negb] in H; [by left|].
    apply lookup_insert_Some in H as [[<- <-]|[_ H]]; [|by left].
    by right; right.
  - intros [[<- <-]|[_ H]]%lookup_insert_Some.
    { right; left. do 3 apply list_elem_of_further. apply list_elem_of_here. }
    apply lookup_insert_Some in H as [[<- <-]|[_ H]]; [|by left].
    right; left. do 2 apply list_elem_of_further. apply list_elem_of_here.
  - by left.
Qed.

(** Apart from the name, which is the record's own, every returned tag
    is one of a fixed list of key and value pairs: no other field value of
    the record reaches the output. *)
Theorem tags_from_fixed_entries (a : gmap string pyval)
    (tags : gmap string string) (k v : string) :
  filter_tags (Some a) = Ok (Some tags) → tags !! k = Some v →
  (k = "name" ∧ a !! "edifc_nome" = Some (PStr v)) ∨ (k, v) ∈ fixed_entries.
Proof.
  intros Ht Hk. destruct (filter_tags_Ok_inv a tags Ht) as [f Hf].
  destruct (filter_tags_fields a f Hf) as (b & Hb & Hft).
  assert (tags = status_result (stat f) b (setitems (earlier_writes f) ∅))
    as -> by congruence.
  assert (∀ kv, kv ∈ earlier_writes f →
            (kv.1 = "name" ∧ a !! "edifc_nome" = Some (PStr kv.2)) ∨
            kv ∈ earlier_literals) as Hearlier.
  { intros kv [->|H]%earlier_writes_elem_of; [left|by right].
    split; [done|]. by destruct Hf as ((Hn & _) & _). }
  unfold fixed_entries. rewrite !elem_of_app.
  apply status_result_lookup_cases in Hk as [Hk|[Hk|(-> & -> & Hyes)]].
  - rewrite setitems_empty_lookup in Hk. apply last_write_elem_of in Hk.
    destruct (Hearlier _ Hk) as [?|?]; [by left|by right; left].
  - by right; right; right.
  - right; right; left. apply last_write_elem_of in Hb.
    destruct (Hearlier _ Hb) as [[? _]|Hin]; [done|].
    unfold construction_writes.
    apply (list_elem_of_fmap_2 (λ kv, ("construction", kv.2)) _ ("building", b)).
    by apply list_elem_of_filter.
Qed.

Lemma tags_from_fixed_entries_witness :
  ("construction" = "name" ∧
   record (PStr "Enel") (PStr "01") (PStr "95") (PStr "0802") PNone
     (PStr "01") !! "edifc_nome" = Some (PStr "service")) ∨
  ("construction", "service") ∈ fixed_entries.
Proof.
  apply (tags_from_fixed_entries
           (record (PStr "Enel") (PStr "01") (PStr "95") (PStr "0802") PNone
              (PStr "01"))
           (<["fixme:building" := "resurvey construction type and status"]>
              (<["building" := "construction"]>
                 (<["construction" := "service"]>
                    (<["utility" := "power"]>
                       (<["building" := "service"]> {["name" := "Enel"]})))))).
  - reflexivity.
  - reflexivity.
Defined.

(** The only tag that can come out empty is the name: what the host's
    suppression of empty tags can drop is the name and nothing else. *)
Theorem only_name_can_be_empty (a : gmap string pyval)
    (tags : gmap string string) (k : string) :
  filter_tags (Some a) = Ok (Some tags) → tags !! k = Some "" → k = "name".
Proof.
  intros Ht Hk.
  destruct (filter_tags_Ok_inv a tags Ht) as [f Hf].
  destruct (filter_tags_fields a f Hf) as (b & Hb & Hft).
  assert (tags = status_result (stat f) b (setitems (earlier_writes f) ∅))
    as -> by congruence.
  assert (Forall (λ kv : string * string, kv.2 = "" → kv.1 = "name")
            (earlier_literals ++ status_writes)%list) as Hall by by_table.
  rewrite Forall_forall in Hall.
  apply status_result_lookup_cases in Hk as [Hk|[Hk|(-> & <- & Hyes)]].
  - rewrite setitems_empty_lookup in Hk. apply last_write_elem_of in Hk.
    apply earlier_writes_elem_of in Hk as [[= -> _]|Hk]; [done|].
    apply (Hall (k, "")); [|done]. apply elem_of_app. by left.
  - apply (Hall (k, "")); [|done]. apply elem_of_app. by right.
  - apply last_write_elem_of, earlier_writes_elem_of in Hb as [[=]|Hb].
    assert (("building", "").1 = "name") as Habs; [|done].
    apply (Hall ("building", "")); [|done]. apply elem_of_app. by left.
Qed.

Lemma only_name_can_be_empty_witness : "name" = "name".
Proof.
  apply (only_name_can_be_empty
           (record (PStr "Unk") PNone (PStr "04") PNone PNone PNone)
           (<["building" := "house"]> {["name" := ""]}) "name").
  - reflexivity.
  - reflexivity.
Defined.

(** ** Which tags of the two tables come out *)

Lemma check_geom_other_key k v :
  k ≠ "fixme:geometry" → last_write k (check_geom_writes v) = None.
Proof.
  intros Hk. rewrite check_geom_writes_01. destruct (py_eq v "01"); [|done].
  cbn [last_write]. by destruct (String.eqb_spec "fixme:geometry" k) as [<-|_].
Qed.

(** A key one of the two tables assigns is none of the keys of the
    boundary check and of the status block, [building] apart. *)
Lemma table_key_not_later k v (ws : writes) :
  ((∃ x, ws = edifc_ty_writes x) ∨ (∃ x, ws = edifc_uso_writes x)) →
  last_write k ws = Some v → k ≠ "building" →
  (k ∉ ["building"; "construction"; "fixme:building"; "ruins"]) ∧
  k ≠ "fixme:geometry".
Proof.
  intros Hws Hk Hb.
  assert (∀ k', (untouched_by_tables k' ∨ k' = "fixme:geometry") → k ≠ k')
    as Hne.
  { intros k' Hk' ->. destruct Hws as [[x ->]|[x ->]], Hk' as [Hu| ->].
    - by rewrite (untouched_ty _ x Hu) in Hk.
    - by rewrite ty_no_fixme_geometry in Hk.
    - by rewrite (untouched_uso _ x Hu) in Hk.
    - by rewrite uso_no_fixme_geometry in Hk. }
  split; [|by apply Hne; right].
  intros Hin. repeat apply elem_of_cons in Hin as [->|Hin]; [done| | | |].
  - by apply (Hne "construction"); [left; apply untouched_construction|].
  - by apply (Hne "fixme:building"); [left; apply untouched_fixme_building|].
  - by apply (Hne "ruins"); [left; apply untouched_ruins|].
  - by apply elem_of_nil in Hin.
Qed.

(** Every tag of the use code's clause other than [building] is
    returned as the clause assigns it: nothing after the use code touches
    it, and it replaces what the type code put under the same key. *)
Theorem use_tags_returned (a : gmap string pyval) (f : fields)
    (k v : string) :
  has_fields a f →
  last_write k (edifc_uso_writes (uso f)) = Some v → k ≠ "building" →
  ∃ tags, filter_tags (Some a) = Ok (Some tags) ∧ tags !! k = Some v.
Proof.
  intros Hf Hk Hb. destruct (filter_tags_fields a f Hf) as (b & _ & ->).
  eexists; split; [done|].
  destruct (table_key_not_later k v (edifc_uso_writes (uso f)))
    as [Hst Hg]; [by right; eexists|done|done|].
  rewrite status_result_other, setitems_empty_lookup
    by (intros ->; apply Hst; apply (bool_decide_unpack _); reflexivity).
  unfold earlier_writes.
  by rewrite !last_write_app, (check_geom_other_key _ _ Hg), Hk.
Qed.

Lemma use_tags_returned_witness :
  ∃ tags,
    filter_tags (Some (record (PStr "Depuratore") (PStr "01") (PStr "07")
                         (PStr "0804") (PStr "01") (PStr "01")))
    = Ok (Some tags) ∧
    tags !! "man_made" = Some "wastewater_plant".
Proof.
  apply (use_tags_returned
           (record (PStr "Depuratore") (PStr "01") (PStr "07") (PStr "0804")
              (PStr "01") (PStr "01"))
           (Fields "Depuratore" (PStr "01") (PStr "07") (PStr "0804")
              (PStr "01") (PStr "01"))).
  - repeat split; reflexivity.
  - reflexivity.
  - discriminate.
Defined.

(** An auxiliary tag of the type code's clause is returned as assigned
    unless the use code's clause assigns the same key. *)
Theorem type_auxiliary_returned (a : gmap string pyval) (f : fields)
    (k v : string) :
  has_fields a f →
  last_write k (edifc_ty_writes (ty f)) = Some v → k ≠ "building" →
  last_write k (edifc_uso_writes (uso f)) = None →
  ∃ tags, filter_tags (Some a) = Ok (Some tags) ∧ tags !! k = Some v.
Proof.
  intros Hf Hk Hb Hu. destruct (filter_tags_fields a f Hf) as (b & _ & ->).
  eexists; split; [done|].
  destruct (table_key_not_later k v (edifc_ty_writes (ty f)))
    as [Hst Hg]; [by left; eexists|done|done|].
  rewrite status_result_other, setitems_empty_lookup
    by (intros ->; apply Hst; apply (bool_decide_unpack _); reflexivity).
  unfold earlier_writes.
  by rewrite !last_write_app, (check_geom_other_key _ _ Hg), Hu, Hk.
Qed.

Lemma type_auxiliary_returned_witness :
  ∃ tags,
    filter_tags (Some (record (PStr "Campanile") (PStr "01") (PStr "07")
                         (PStr "05") PNone (PStr "02")))
    = Ok (Some tags) ∧
    tags !! "tower:type" = Some "bell_tower".
Proof.
  apply (type_auxiliary_returned
           (record (PStr "Campanile") (PStr "01") (PStr "07") (PStr "05")
              PNone (PStr "02"))
           (Fields "Campanile" (PStr "01") (PStr "07") (PStr "05") PNone
              (PStr "02"))).
  - repeat split; reflexivity.
  - reflexivity.
  - discriminate.
  - reflexivity.
Defined.

(** The returned dictionary has no key outside the twenty-nine keys the
    method assigns. *)
Theorem returned_keys (a : gmap string pyval) (tags : gmap string string)
    (k : string) :
  filter_tags (Some a) = Ok (Some tags) → is_Some (tags !! k) →
  k ∈ tag_keys.
Proof.
  intros Ht [v Hk].
  destruct (filter_tags_Ok_inv a tags Ht) as [f Hf].
  destruct (filter_tags_fields a f Hf) as (b & Hb & Hft).
  assert (tags = status_result (stat f) b (setitems (earlier_writes f) ∅))
    as -> by congruence.
  assert (Forall (λ kv : string * string, kv.1 ∈ tag_keys)
            (earlier_literals ++ status_writes)%list) as Hall by by_table.
  rewrite Forall_forall in Hall.
  apply status_result_lookup_cases in Hk as [Hk|[Hk|(-> & _ & _)]].
  - rewrite setitems_empty_lookup in Hk. apply last_write_elem_of in Hk.
    apply earlier_writes_elem_of in Hk as [[= -> _]|Hk].
    + apply list_elem_of_here.
    + apply (Hall (k, v)), elem_of_app. by left.
  - apply (Hall (k, v)), elem_of_app. by right.
  - apply (bool_decide_unpack _). reflexivity.
Qed.

Lemma returned_keys_witness : "healthcare" ∈ tag_keys.
Proof.
  apply (returned_keys
           (record (PStr "Ospedale") PNone PNone (PStr "030102") PNone PNone)
           (<["healthcare" := "hospital"]> (<["amenity" := "hospital"]>
              (<["building" := "yes"]> {["name" := "Ospedale"]})))
           "healthcare").
  - reflexivity.
  - eexists. reflexivity.
Defined.
